(** * go_sign: the signing engine (internal/xhs/sign.go) and its gateway
      (internal/xhs/http.go)

    The package drives a headless browser through playwright-go.  Every call
    that leaves the package (playwright, os.Stat, encoding/json, gin's body
    binding) is an operation [Op]; the Go functions are programs [Prog] over
    these operations.  A program is run against a [Driver], which answers the
    operations, and every answered operation is appended to a log.  Go's
    run-time panic on a nil dereference is an outcome of its own.

    Calls to [slog] are left out: they return nothing and touch neither the
    Signer nor the browser. *)

From stdpp Require Import base strings gmap list.

#[local] Set Warnings "-register-all".
#[local] Open Scope string_scope.

(** ** Go values *)

(** A value of type [any] as it crosses the scripting bridge or comes out of
    a JSON decoder.  [AOther] stands for any further dynamic type. *)
Inductive GoAny : Type :=
| ANil
| ABool (b : bool)
| AInt (n : Z)
| AFloat64 (bits : Z)
| AString (s : string)
| ASlice (l : list GoAny)
| AMap (m : gmap string GoAny)
| AOther (type_name : string).

(** [error]: [errors.New msg] and [fmt.Errorf (prefix ++ "%w") cause]. *)
Inductive error : Type :=
| errors_New (msg : string)
| fmt_Errorf_w (prefix : string) (cause : error).

Fixpoint Error (e : error) : string :=
  match e with
  | errors_New msg => msg
  | fmt_Errorf_w prefix cause => prefix +:+ Error cause
  end.

(** Handles of the browser automation library. *)
Inductive PlaywrightH : Type := PwH (id : nat).
Inductive Browser : Type := BrowserH (id : nat).
Inductive BrowserContext : Type := ContextH (id : nat).
Inductive Page : Type := PageH (id : nat).

Record Cookie : Type := { Name : string; Value : string }.

(** ** sign.go: types *)

Record SignParams : Type := {
  URI : string;
  Data : GoAny;
  A1 : string;
  WebSession : string
}.

Record SignResult : Type := {
  XS : string;
  XT : string
}.

(** [initOnce] is the done flag of the [sync.Once]. *)
Record Signer : Type := {
  pw : option PlaywrightH;
  browser : option Browser;
  context : option BrowserContext;
  page : option Page;
  stealthJS : string;
  initOnce : bool;
  initErr : option error
}.

(** [var s Signer] *)
Definition zero_Signer : Signer :=
  {| pw := None; browser := None; context := None; page := None;
     stealthJS := ""; initOnce := false; initErr := None |}.

Definition set_pw (v : option PlaywrightH) (s : Signer) : Signer :=
  {| pw := v; browser := browser s; context := context s; page := page s;
     stealthJS := stealthJS s; initOnce := initOnce s; initErr := initErr s |}.
Definition set_browser (v : option Browser) (s : Signer) : Signer :=
  {| pw := pw s; browser := v; context := context s; page := page s;
     stealthJS := stealthJS s; initOnce := initOnce s; initErr := initErr s |}.
Definition set_context (v : option BrowserContext) (s : Signer) : Signer :=
  {| pw := pw s; browser := browser s; context := v; page := page s;
     stealthJS := stealthJS s; initOnce := initOnce s; initErr := initErr s |}.
Definition set_page (v : option Page) (s : Signer) : Signer :=
  {| pw := pw s; browser := browser s; context := context s; page := v;
     stealthJS := stealthJS s; initOnce := initOnce s; initErr := initErr s |}.
Definition set_stealthJS (v : string) (s : Signer) : Signer :=
  {| pw := pw s; browser := browser s; context := context s; page := page s;
     stealthJS := v; initOnce := initOnce s; initErr := initErr s |}.
Definition set_initOnce (v : bool) (s : Signer) : Signer :=
  {| pw := pw s; browser := browser s; context := context s; page := page s;
     stealthJS := stealthJS s; initOnce := v; initErr := initErr s |}.
Definition set_initErr (v : option error) (s : Signer) : Signer :=
  {| pw := pw s; browser := browser s; context := context s; page := page s;
     stealthJS := stealthJS s; initOnce := initOnce s; initErr := v |}.

(** ** Operations outside the package *)

(** Each operation is indexed by what the Go call returns; a Go pair
    [(value, error)] is a pair of options, as both may be nil. *)
Inductive Op : Type -> Type :=
| playwright_Run : Op (option PlaywrightH * option error)
| Chromium_Launch (p : PlaywrightH) (headless : bool)
  : Op (option Browser * option error)
| Browser_NewContext (b : Browser) : Op (option BrowserContext * option error)
| os_Stat (path : string) : Op (option error)
| Context_AddInitScript (c : BrowserContext) (path : string) : Op (option error)
| Context_NewPage (c : BrowserContext) : Op (option Page * option error)
| Page_Goto (p : Page) (url : string) : Op (option error)
| Context_Cookies (c : BrowserContext) : Op (list Cookie * option error)
| Page_Evaluate (p : Page) (js : string) (arg : GoAny) : Op (GoAny * option error)
| Page_Close (p : Page) : Op (option error)
| Context_Close (c : BrowserContext) : Op (option error)
| Browser_Close (b : Browser) : Op (option error)
| Playwright_Stop (p : PlaywrightH) : Op (option error)
| json_Marshal (v : GoAny) : Op (string * option error)
| ShouldBindJSON (body : string) : Op (SignParams * option error).

(** ** Programs *)

Inductive Prog (A : Type) : Type :=
| Ret (a : A)
| Panic (reason : string)
| Vis {X : Type} (op : Op X) (k : X -> Prog A).
Arguments Ret {A} a.
Arguments Panic {A} reason.
Arguments Vis {A X} op k.

Fixpoint bind {A B : Type} (m : Prog A) (f : A -> Prog B) : Prog B :=
  match m with
  | Ret a => f a
  | Panic r => Panic r
  | Vis op k => Vis op (fun x => bind (k x) f)
  end.

#[export] Instance Prog_ret : MRet Prog := @Ret.
#[export] Instance Prog_bind : MBind Prog := fun A B f m => bind m f.

Definition call {X : Type} (op : Op X) : Prog X := Vis op Ret.

Definition nil_dereference : string :=
  "invalid memory address or nil pointer dereference".

(** A method call or field access through a pointer or interface value:
    it panics when the value is nil. *)
Definition deref {H A : Type} (h : option H) (k : H -> Prog A) : Prog A :=
  match h with
  | Some x => k x
  | None => Panic nil_dereference
  end.

(** [h != nil] and [h == nil] *)
Definition non_nil {H : Type} (h : option H) : bool :=
  match h with Some _ => true | None => false end.
Definition is_nil {H : Type} (h : option H) : bool := negb (non_nil h).

(** ** sign.go: NewSigner *)

Definition home_url : string := "https://www.xiaohongshu.com".

(** The closure handed to [s.initOnce.Do]; it returns the Signer it leaves. *)
Definition init_body (stealthJSPath : string) (s : Signer) : Prog Signer :=
  let s := set_stealthJS stealthJSPath s in
  '(h, err) ← call playwright_Run;
  let s := set_pw h s in
  if non_nil err then
    Ret (set_initErr (fmt_Errorf_w "启动 Playwright 失败: " <$> err) s)
  else
  '(b, err) ← deref (pw s) (fun p => call (Chromium_Launch p true));
  let s := set_browser b s in
  if non_nil err then
    Ret (set_initErr (fmt_Errorf_w "启动 Chromium 失败: " <$> err) s)
  else
  '(c, err) ← deref (browser s) (fun b => call (Browser_NewContext b));
  let s := set_context c s in
  if non_nil err then
    Ret (set_initErr (fmt_Errorf_w "创建浏览器上下文失败: " <$> err) s)
  else
  err ← call (os_Stat stealthJSPath);
  if non_nil err then
    Ret (set_initErr (fmt_Errorf_w "stealth.js 文件不存在: " <$> err) s)
  else
  err ← deref (context s) (fun c => call (Context_AddInitScript c stealthJSPath));
  if non_nil err then
    Ret (set_initErr (fmt_Errorf_w "注入 stealth.js 失败: " <$> err) s)
  else
  '(p, err) ← deref (context s) (fun c => call (Context_NewPage c));
  let s := set_page p s in
  if non_nil err then
    Ret (set_initErr (fmt_Errorf_w "新建页面失败: " <$> err) s)
  else
  err ← deref (page s) (fun p => call (Page_Goto p home_url));
  if non_nil err then
    Ret (set_initErr (fmt_Errorf_w "跳转小红书首页失败: " <$> err) s)
  else
  _ ← deref (context s) (fun c => call (Context_Cookies c));
  Ret s.

(** [sync.Once.Do]: the function runs only while the flag is unset. *)
Definition Once_Do (s : Signer) (f : Signer -> Prog Signer) : Prog Signer :=
  if initOnce s then Ret s
  else s' ← f s; Ret (set_initOnce true s').

Definition NewSigner (stealthJSPath : string)
  : Prog (option Signer * option error) :=
  s ← Once_Do zero_Signer (init_body stealthJSPath);
  if non_nil (initErr s) then Ret (None, initErr s)
  else Ret (Some s, None).

(** ** sign.go: Sign *)

Definition probe_js : string :=
  "() => typeof window._webmsxyw === 'function'".
Definition sign_js : string :=
  "([url, dataStr]) => window._webmsxyw(url, JSON.parse(dataStr))".

Definition err_page_uninitialised : error := errors_New "页面未初始化".
Definition err_not_injected : error :=
  errors_New "window._webmsxyw 未定义或未注入签名 JS".
Definition err_result_shape : error := errors_New "签名结果类型断言失败".

(** [exists != true] for [exists] of type [any] *)
Definition not_true (v : GoAny) : bool :=
  match v with ABool true => false | _ => true end.

(** [v, _ := m[key].(string)] *)
Definition string_field (m : gmap string GoAny) (key : string) : string :=
  match m !! key with
  | Some (AString v) => v
  | _ => ""
  end.

Definition Sign (sp : option Signer) (params : SignParams)
  : Prog (option SignResult * option error) :=
  deref sp (fun s =>
  if is_nil (page s) then Ret (None, Some err_page_uninitialised)
  else
  '(exists_, err) ← deref (page s) (fun p => call (Page_Evaluate p probe_js ANil));
  if non_nil err then
    Ret (None, fmt_Errorf_w "检查 window._webmsxyw 失败: " <$> err)
  else
  if not_true exists_ then Ret (None, Some err_not_injected)
  else
  '(dataJSON, err) ← call (json_Marshal (Data params));
  if non_nil err then
    Ret (None, fmt_Errorf_w "data 参数序列化失败: " <$> err)
  else
  '(res, err) ← deref (page s) (fun p =>
      call (Page_Evaluate p sign_js
              (ASlice [AString (URI params); AString dataJSON])));
  if non_nil err then
    Ret (None, fmt_Errorf_w "执行签名 JS 失败: " <$> err)
  else
  match res with
  | AMap m =>
      let xs := string_field m "X-s" in
      let xt := string_field m "X-t" in
      Ret (Some {| XS := xs; XT := xt |}, None)
  | _ => Ret (None, Some err_result_shape)
  end).

(** ** sign.go: Close *)

(** [if firstErr == nil { firstErr = fmt.Errorf(prefix+"%w", err) }] inside
    [if err != nil]. *)
Definition note_err (prefix : string) (err firstErr : option error)
  : option error :=
  match err with
  | Some e => if is_nil firstErr then Some (fmt_Errorf_w prefix e) else firstErr
  | None => firstErr
  end.

Definition Close (sp : option Signer) : Prog (option error) :=
  deref sp (fun s =>
  let firstErr : option error := None in
  firstErr ←
    (if non_nil (page s) then
       err ← deref (page s) (fun p => call (Page_Close p));
       Ret (note_err "关闭页面失败: " err firstErr)
     else Ret firstErr);
  firstErr ←
    (if non_nil (context s) then
       err ← deref (context s) (fun c => call (Context_Close c));
       Ret (note_err "关闭浏览器上下文失败: " err firstErr)
     else Ret firstErr);
  firstErr ←
    (if non_nil (browser s) then
       err ← deref (browser s) (fun b => call (Browser_Close b));
       Ret (note_err "关闭浏览器失败: " err firstErr)
     else Ret firstErr);
  firstErr ←
    (if non_nil (pw s) then
       err ← deref (pw s) (fun p => call (Playwright_Stop p));
       Ret (note_err "关闭 Playwright 失败: " err firstErr)
     else Ret firstErr);
  Ret firstErr).

(** ** http.go: the POST /sign handler *)

Definition StatusOK : Z := 200.
Definition StatusBadRequest : Z := 400.
Definition StatusInternalServerError : Z := 500.

(** The second argument of [c.JSON]: a [gin.H] or the [*SignResult]. *)
Inductive Body : Type :=
| gin_H (h : gmap string GoAny)
| BodySignResult (r : option SignResult).

Record Response : Type := { status : Z; body : Body }.

(** The JSON object of a body; the field names of a [SignResult] are its
    struct tags.  A nil pointer renders as [null], which is no object. *)
Definition json_object (b : Body) : option (gmap string GoAny) :=
  match b with
  | gin_H h => Some h
  | BodySignResult (Some r) =>
      Some (<["x-s" := AString (XS r)]> (<["x-t" := AString (XT r)]> ∅))
  | BodySignResult None => None
  end.

Definition sign_handler (signer : option Signer) (request_body : string)
  : Prog Response :=
  '(req, err) ← call (ShouldBindJSON request_body);
  match err with
  | Some e =>
      Ret {| status := StatusBadRequest;
             body := gin_H {[ "error" := AString ("参数解析失败: " +:+ Error e) ]} |}
  | None =>
      '(res, err) ← Sign signer req;
      match err with
      | Some e =>
          Ret {| status := StatusInternalServerError;
                 body := gin_H {[ "error" := AString ("签名失败: " +:+ Error e) ]} |}
      | None => Ret {| status := StatusOK; body := BodySignResult res |}
      end
  end.

(** [RegisterRoutes]: the routes the function adds to the router, as method,
    path and handler. *)
Definition RegisterRoutes (signer : option Signer)
  : list (string * string * (string -> Prog Response)) :=
  [ ("POST", "/sign", sign_handler signer) ].

(** ** Running a program against a driver *)

(** A driver answers every operation from its current world. *)
Class Driver (W : Type) : Type :=
  handle : forall X : Type, Op X -> W -> X * W.
Arguments handle {W _ X} op w.

(** One answered operation. *)
Inductive Event : Type :=
| Ev {X : Type} (op : Op X) (reply : X).

Record St (W : Type) : Type := { world : W; log : list Event }.
Arguments world {W} s.
Arguments log {W} s.

Inductive Res (A : Type) : Type :=
| Returned (a : A)
| Panicked (reason : string).
Arguments Returned {A} a.
Arguments Panicked {A} reason.

Fixpoint run {W : Type} `{!Driver W} {A : Type} (p : Prog A) (st : St W)
  : Res A * St W :=
  match p with
  | Ret a => (Returned a, st)
  | Panic r => (Panicked r, st)
  | Vis op k =>
      let '(x, w) := handle op (world st) in
      run (k x) {| world := w; log := log st ++ [Ev op x] |}
  end.

(** Calls of one function made one after the other, each from the state the
    previous one left; a panic of one call is recovered by its own caller. *)
Fixpoint run_all {W : Type} `{!Driver W} {A : Type} (ps : list (Prog A))
  (st : St W) : list (Res A) * St W :=
  match ps with
  | [] => ([], st)
  | p :: ps' =>
      let '(r, st1) := run p st in
      let '(rs, st2) := run_all ps' st1 in
      (r :: rs, st2)
  end.



(** ** Goroutines sharing one driver *)

(** Each goroutine is a program; a step of goroutine [tid] answers its next
    operation atomically.  Nothing else orders the goroutines: the Signer has
    no lock besides the [sync.Once] of [NewSigner]. *)
Record Pool (W A : Type) : Type := {
  threads : list (Prog A);
  shared : W;
  trace : list (nat * Event)
}.
Arguments threads {W A} p.
Arguments shared {W A} p.
Arguments trace {W A} p.

Definition step {W : Type} `{!Driver W} {A : Type} (tid : nat) (c : Pool W A)
  : Pool W A :=
  match threads c !! tid with
  | Some (Vis op k) =>
      let '(x, w) := handle op (shared c) in
      {| threads := <[tid := k x]> (threads c);
         shared := w;
         trace := trace c ++ [(tid, Ev op x)] |}
  | _ => c
  end.

Definition schedule {W : Type} `{!Driver W} {A : Type} (sched : list nat)
  (c : Pool W A) : Pool W A :=
  foldl (fun c tid => step tid c) c sched.





Definition spawn {W A : Type} (ps : list (Prog A)) (w : W) : Pool W A :=
  {| threads := ps; shared := w; trace := [] |}.

(** ** A scripted driver, to run the programs on concrete inputs *)

Record Mock : Type := {
  runs : nat;
  run_error : nat -> option error;
  goto_error : option error;
  evaluate_reply : string -> GoAny -> GoAny * option error;
  marshal_reply : GoAny -> string * option error;
  page_close_error : option error;
  context_close_error : option error;
  browser_close_error : option error;
  stop_error : option error;
  bind_reply : string -> SignParams * option error
}.

Definition count_run (w : Mock) : Mock :=
  {| runs := S (runs w); run_error := run_error w; goto_error := goto_error w;
     evaluate_reply := evaluate_reply w; marshal_reply := marshal_reply w;
     page_close_error := page_close_error w;
     context_close_error := context_close_error w;
     browser_close_error := browser_close_error w;
     stop_error := stop_error w; bind_reply := bind_reply w |}.

Definition mock_handle (X : Type) (op : Op X) (w : Mock) : X * Mock :=
  match op in Op X return X * Mock with
  | playwright_Run =>
      match run_error w (runs w) with
      | Some e => ((None, Some e), count_run w)
      | None => ((Some (PwH (runs w)), None), count_run w)
      end
  | Chromium_Launch (PwH n) _ => ((Some (BrowserH n), None), w)
  | Browser_NewContext (BrowserH n) => ((Some (ContextH n), None), w)
  | os_Stat _ => (None, w)
  | Context_AddInitScript _ _ => (None, w)
  | Context_NewPage (ContextH n) => ((Some (PageH n), None), w)
  | Page_Goto _ _ => (goto_error w, w)
  | Context_Cookies _ => (([], None), w)
  | Page_Evaluate _ js arg => (evaluate_reply w js arg, w)
  | Page_Close _ => (page_close_error w, w)
  | Context_Close _ => (context_close_error w, w)
  | Browser_Close _ => (browser_close_error w, w)
  | Playwright_Stop _ => (stop_error w, w)
  | json_Marshal v => (marshal_reply w v, w)
  | ShouldBindJSON b => (bind_reply w b, w)
  end.

#[export] Instance Mock_Driver : Driver Mock := mock_handle.

(** A page whose signing function answers [answer] to every call. *)
Definition page_answering (answer : GoAny) (js : string) (arg : GoAny)
  : GoAny * option error :=
  if String.eqb js probe_js then (ABool true, None) else (answer, None).

(** Enough of [json.Marshal] for the payloads used below. *)
Definition marshal_some (v : GoAny) : string * option error :=
  match v with
  | ANil => ("null", None)
  | ABool true => ("true", None)
  | ABool false => ("false", None)
  | AInt 1 => ("1", None)
  | ASlice [] => ("[]", None)
  | AMap _ => ("{}", None)
  | _ => ("", Some (errors_New "json: unsupported value"))
  end.

Definition bind_some (request_body : string) : SignParams * option error :=
  if String.eqb request_body "{" then
    ({| URI := ""; Data := ANil; A1 := ""; WebSession := "" |},
     Some (errors_New "unexpected EOF"))
  else
    ({| URI := "/api/foo"; Data := AMap ∅; A1 := ""; WebSession := "" |}, None).

Definition mock (answer : GoAny) : Mock :=
  {| runs := 0; run_error := fun _ => None; goto_error := None;
     evaluate_reply := page_answering answer;
     marshal_reply := marshal_some;
     page_close_error := None; context_close_error := None;
     browser_close_error := None; stop_error := None;
     bind_reply := bind_some |}.

Definition fresh {W : Type} (w : W) : St W := {| world := w; log := [] |}.

Definition tokens : GoAny :=
  AMap {[ "X-s" := AString "abc"; "X-t" := AString "123" ]}.

(** The Signer a successful [NewSigner] leaves against [mock]. *)
Definition ready_Signer : Signer :=
  {| pw := Some (PwH 0); browser := Some (BrowserH 0);
     context := Some (ContextH 0); page := Some (PageH 0);
     stealthJS := "./stealth.min.js"; initOnce := true; initErr := None |}.

Definition request (uri : string) (data : GoAny) : SignParams :=
  {| URI := uri; Data := data; A1 := ""; WebSession := "" |}.


(** Every launch fails. *)
Definition broken_mock : Mock :=
  {| runs := 0;
     run_error := fun _ => Some (errors_New "could not start driver");
     goto_error := None;
     evaluate_reply := page_answering tokens;
     marshal_reply := marshal_some;
     page_close_error := None; context_close_error := None;
     browser_close_error := None; stop_error := None;
     bind_reply := bind_some |}.

(** The page opens, but the navigation to the site fails. *)
Definition stalled_mock : Mock :=
  {| runs := 0; run_error := fun _ => None;
     goto_error := Some (errors_New "net::ERR_NAME_NOT_RESOLVED");
     evaluate_reply := page_answering tokens;
     marshal_reply := marshal_some;
     page_close_error := None; context_close_error := None;
     browser_close_error := None; stop_error := None;
     bind_reply := bind_some |}.

(** Closing the page and the browser fails. *)
Definition closing_mock : Mock :=
  {| runs := 0; run_error := fun _ => None; goto_error := None;
     evaluate_reply := page_answering tokens;
     marshal_reply := marshal_some;
     page_close_error := Some (errors_New "target closed");
     context_close_error := None;
     browser_close_error := Some (errors_New "connection lost");
     stop_error := None;
     bind_reply := bind_some |}.

(** ** Properties stated over runs *)

(** From [st], the probe of [Sign] finds the signing function, the payload
    serialises, and the in-page function hands [res] back without error. *)
Definition in_page_returns {W : Type} `{!Driver W} (s : Signer)
  (params : SignParams) (st : St W) (res : GoAny) : Prop :=
  exists (p : Page) (dataJSON : string) (w1 w2 w3 : W),
    page s = Some p /\
    handle (Page_Evaluate p probe_js ANil) (world st) = ((ABool true, None), w1) /\
    handle (json_Marshal (Data params)) w1 = ((dataJSON, None), w2) /\
    handle (Page_Evaluate p sign_js
              (ASlice [AString (URI params); AString dataJSON])) w2
    = ((res, None), w3).

Definition is_mapping (v : GoAny) : Prop := exists m, v = AMap m.

(** The first error of a list of release steps, wrapped with the prefix of
    its step; nil when no step failed. *)
Fixpoint first_error (steps : list (string * option error)) : option error :=
  match steps with
  | [] => None
  | (prefix, Some e) :: _ => Some (fmt_Errorf_w prefix e)
  | (_, None) :: rest => first_error rest
  end.



(** The release operations [Close] issues for a Signer, nil handles left
    out, the i-th answered by [ei]. *)
Definition releases (s : Signer) (e1 e2 e3 e4 : option error) : list Event :=
  match page s with Some p => [Ev (Page_Close p) e1] | None => [] end ++
  match context s with Some c => [Ev (Context_Close c) e2] | None => [] end ++
  match browser s with Some b => [Ev (Browser_Close b) e3] | None => [] end ++
  match pw s with Some p => [Ev (Playwright_Stop p) e4] | None => [] end.


(** ** Tactics *)

(** Answer the next operation of the program being run. *)
Ltac answer :=
  match goal with
  | |- context [handle ?op ?w] =>
      let x := fresh "x" in
      let w' := fresh "w" in
      let E := fresh "E" in
      destruct (handle op w) as [x w'] eqn:E; simpl in *
  end.

(** Follow a program through every answer its operations can get. *)
Ltac all_answers :=
  repeat first
    [ answer
    | match goal with
      | x : (_ * _)%type |- _ => destruct x; simpl in *
      | |- context [match ?o with Some _ => _ | None => _ end] =>
          is_var o; destruct o; simpl in *
      | |- context [non_nil ?o] => is_var o; destruct o; simpl in *
      | |- context [deref ?o _] => is_var o; destruct o; simpl in *
      end ].

(** The page has not defined the signing function: every script evaluates
    to [false]. *)
Definition bare_mock : Mock :=
  {| runs := 0; run_error := fun _ => None; goto_error := None;
     evaluate_reply := fun _ _ => (ABool false, None);
     marshal_reply := marshal_some;
     page_close_error := None; context_close_error := None;
     browser_close_error := None; stop_error := None;
     bind_reply := bind_some |}.

(** ** Reading the log *)

(** The error an operation answered, nil when it answered none. *)
Definition event_error (e : Event) : option error :=
  match e with
  | Ev op reply =>
      match op in Op X return X -> option error with
      | playwright_Run => snd
      | Chromium_Launch _ _ => snd
      | Browser_NewContext _ => snd
      | os_Stat _ => fun r => r
      | Context_AddInitScript _ _ => fun r => r
      | Context_NewPage _ => snd
      | Page_Goto _ _ => fun r => r
      | Context_Cookies _ => snd
      | Page_Evaluate _ _ _ => snd
      | Page_Close _ => fun r => r
      | Context_Close _ => fun r => r
      | Browser_Close _ => fun r => r
      | Playwright_Stop _ => fun r => r
      | json_Marshal _ => snd
      | ShouldBindJSON _ => snd
      end reply
  end.

(** The text sign.go puts before the error of a launch stage or of a release
    step. *)
Definition stage_prefix (e : Event) : string :=
  match e with
  | Ev op _ =>
      match op with
      | playwright_Run => "启动 Playwright 失败: "
      | Chromium_Launch _ _ => "启动 Chromium 失败: "
      | Browser_NewContext _ => "创建浏览器上下文失败: "
      | os_Stat _ => "stealth.js 文件不存在: "
      | Context_AddInitScript _ _ => "注入 stealth.js 失败: "
      | Context_NewPage _ => "新建页面失败: "
      | Page_Goto _ _ => "跳转小红书首页失败: "
      | Page_Close _ => "关闭页面失败: "
      | Context_Close _ => "关闭浏览器上下文失败: "
      | Browser_Close _ => "关闭浏览器失败: "
      | Playwright_Stop _ => "关闭 Playwright 失败: "
      | _ => ""
      end
  end.

Definition is_release (e : Event) : bool :=
  match e with
  | Ev op _ =>
      match op with
      | Page_Close _ | Context_Close _ | Browser_Close _ | Playwright_Stop _ =>
          true
      | _ => false
      end
  end.

(** How many release operations were issued. *)
Definition released (l : list Event) : nat :=
  length (filter (fun e => is_release e = true) l).

(** The operations of a launch that went through, on the handles it made. *)
Definition launch_events (path : string) (r : PlaywrightH) (b : Browser)
  (c : BrowserContext) (p : Page) (cookies : list Cookie * option error)
  : list Event :=
  [ Ev playwright_Run (Some r, None);
    Ev (Chromium_Launch r true) (Some b, None);
    Ev (Browser_NewContext b) (Some c, None);
    Ev (os_Stat path) None;
    Ev (Context_AddInitScript c path) None;
    Ev (Context_NewPage c) (Some p, None);
    Ev (Page_Goto p home_url) None;
    Ev (Context_Cookies c) cookies ].

(** The errors [Sign] can return. *)
Definition Sign_error (e : error) : Prop :=
  e = err_page_uninitialised \/
  (exists cause, e = fmt_Errorf_w "检查 window._webmsxyw 失败: " cause) \/
  e = err_not_injected \/
  (exists cause, e = fmt_Errorf_w "data 参数序列化失败: " cause) \/
  (exists cause, e = fmt_Errorf_w "执行签名 JS 失败: " cause) \/
  e = err_result_shape.

(** ** One goroutine within a trace *)

(** The operations of goroutine [tid], in the order of the trace. *)
Definition events_of (tid : nat) (tr : list (nat * Event)) : list Event :=
  snd <$> filter (fun e => fst e = tid) tr.

(** [replays p0 evs p]: program [p0], given the answers recorded in [evs] to
    its operations in turn, has become [p]. *)
Fixpoint replays {A : Type} (p0 : Prog A) (evs : list Event) (p : Prog A)
  : Prop :=
  match p0 with
  | Vis op k =>
      (evs = [] /\ p = p0) \/
      (exists x evs', evs = Ev op x :: evs' /\ replays (k x) evs' p)
  | _ => evs = [] /\ p = p0
  end.

(** What one call of [Sign] may have done so far: nothing; the probe; the
    probe, which found the function, and the serialisation; or these two,
    both without error, and the evaluation of the signing script on the uri
    and the serialised payload. *)
Definition Sign_call_prefix (s : Signer) (params : SignParams)
  (evs : list Event) : Prop :=
  evs = [] \/
  exists p, page s = Some p /\
    ((exists r1, evs = [Ev (Page_Evaluate p probe_js ANil) r1]) \/
     (exists r2, evs = [ Ev (Page_Evaluate p probe_js ANil) (ABool true, None);
                         Ev (json_Marshal (Data params)) r2 ]) \/
     (exists dataJSON r3,
        evs = [ Ev (Page_Evaluate p probe_js ANil) (ABool true, None);
                Ev (json_Marshal (Data params)) (dataJSON, None);
                Ev (Page_Evaluate p sign_js
                      (ASlice [AString (URI params); AString dataJSON])) r3 ])).

(** Follow [Sign] and the handler through every answer. *)
Ltac every_answer :=
  repeat first
    [ answer
    | match goal with
      | x : (_ * _)%type |- _ => destruct x; simpl in *
      | |- context [match ?v with _ => _ end] => is_var v; destruct v; simpl in *
      | |- context [non_nil ?o] => is_var o; destruct o; simpl in *
      | |- context [not_true ?v] => is_var v; destruct v; simpl in *
      | |- context [deref ?o _] => is_var o; destruct o; simpl in *
      end ].

(** * Theorems *)

(** ** Running programs *)

Lemma run_bind {W : Type} `{!Driver W} {A B : Type} (m : Prog A)
  (f : A -> Prog B) (st : St W) :
  run (bind m f) st =
  match run m st with
  | (Returned a, st') => run (f a) st'
  | (Panicked r, st') => (Panicked r, st')
  end.
Proof.
  revert st. induction m as [a | r | X op k IH]; intros st; simpl; try done.
  destruct (handle op (world st)) as [x w]. apply IH.
Qed.

Lemma run_all_cons {W : Type} `{!Driver W} {A : Type} (p : Prog A)
  (ps : list (Prog A)) (st : St W) :
  run_all (p :: ps) st =
  let '(r, st1) := run p st in
  let '(rs, st2) := run_all ps st1 in
  (r :: rs, st2).
Proof. reflexivity. Qed.


(** ** The programs on the scripted driver *)

Example NewSigner_on_mock :
  fst (run (NewSigner "./stealth.min.js") (fresh (mock tokens)))
  = Returned (Some ready_Signer, None).
Proof. reflexivity. Qed.

Example Sign_on_mock :
  fst (run (Sign (Some ready_Signer) (request "/api/foo" (AInt 1)))
         (fresh (mock tokens)))
  = Returned (Some {| XS := "abc"; XT := "123" |}, None).
Proof. reflexivity. Qed.

Example Sign_log_on_mock :
  log (snd (run (Sign (Some ready_Signer) (request "/api/foo" (AInt 1)))
         (fresh (mock tokens))))
  = [ Ev (Page_Evaluate (PageH 0) probe_js ANil) (ABool true, None);
      Ev (json_Marshal (AInt 1)) ("1", None);
      Ev (Page_Evaluate (PageH 0) sign_js
            (ASlice [AString "/api/foo"; AString "1"])) (tokens, None) ].
Proof. reflexivity. Qed.

Example NewSigner_on_stalled_mock :
  run (NewSigner "./stealth.min.js") (fresh stalled_mock)
  = (Returned (None, Some (fmt_Errorf_w "跳转小红书首页失败: "
                             (errors_New "net::ERR_NAME_NOT_RESOLVED"))),
     {| world := count_run stalled_mock;
        log := [ Ev playwright_Run (Some (PwH 0), None);
                 Ev (Chromium_Launch (PwH 0) true) (Some (BrowserH 0), None);
                 Ev (Browser_NewContext (BrowserH 0)) (Some (ContextH 0), None);
                 Ev (os_Stat "./stealth.min.js") None;
                 Ev (Context_AddInitScript (ContextH 0) "./stealth.min.js") None;
                 Ev (Context_NewPage (ContextH 0)) (Some (PageH 0), None);
                 Ev (Page_Goto (PageH 0) home_url)
                   (Some (errors_New "net::ERR_NAME_NOT_RESOLVED")) ] |}).
Proof. reflexivity. Qed.

Example RegisterRoutes_on_mock :
  (fun '(method, path, h) =>
     (method, path, fst (run (h "{}") (fresh (mock tokens)))))
    <$> RegisterRoutes (Some ready_Signer)
  = [ ("POST", "/sign",
       Returned {| status := 200;
                   body := BodySignResult (Some {| XS := "abc"; XT := "123" |}) |}) ].
Proof. reflexivity. Qed.

(** ** Sign: the result of the in-page function *)

Lemma Sign_after_evaluate {W : Type} `{!Driver W} (s : Signer)
  (params : SignParams) (st : St W) (res : GoAny) :
  in_page_returns s params st res ->
  fst (run (Sign (Some s) params) st) =
  match res with
  | AMap m =>
      Returned (Some {| XS := string_field m "X-s"; XT := string_field m "X-t" |},
                None)
  | _ => Returned (None, Some err_result_shape)
  end.
Proof.
  intros (p & dataJSON & w1 & w2 & w3 & Hp & H1 & H2 & H3).
  unfold Sign. simpl. rewrite Hp. simpl.
  rewrite H1. simpl. rewrite H2. simpl. rewrite H3. simpl.
  destruct res; reflexivity.
Qed.

Lemma in_page_returns_mock (answer data : GoAny) (uri : string) :
  snd (marshal_some data) = None ->
  in_page_returns ready_Signer (request uri data) (fresh (mock answer)) answer.
Proof.
  intros Hm. exists (PageH 0), (fst (marshal_some data)), (mock answer),
    (mock answer), (mock answer).
  repeat split.
  simpl. unfold handle, Mock_Driver. simpl.
  destruct (marshal_some data) as [d e]. simpl in *. by subst.
Qed.

(** C3, as the code has it: when the in-page function returns a value that is
    not a key/value mapping, Sign fails with the result-shape error; when it
    returns a mapping, Sign succeeds, and a field "X-s" or "X-t" that is
    missing or not a string comes out as the empty string. *)
Theorem Sign_result_shape {W : Type} `{!Driver W} (s : Signer)
  (params : SignParams) (st : St W) (res : GoAny) :
  in_page_returns s params st res ->
  (~ is_mapping res ->
   fst (run (Sign (Some s) params) st) = Returned (None, Some err_result_shape))
  /\
  (forall m : gmap string GoAny, res = AMap m ->
   fst (run (Sign (Some s) params) st) =
   Returned
     (Some {| XS := match m !! "X-s" with Some (AString v) => v | _ => "" end;
              XT := match m !! "X-t" with Some (AString v) => v | _ => "" end |},
      None)).
Proof.
  intros Hret. rewrite (Sign_after_evaluate s params st res Hret). split.
  - intros Hno. destruct res; try reflexivity.
    exfalso. apply Hno. by eexists.
  - intros m ->. reflexivity.
Qed.

Lemma Sign_result_shape_witness :
  fst (run (Sign (Some ready_Signer) (request "/api/foo" (AInt 1)))
         (fresh (mock (AInt 7))))
  = Returned (None, Some err_result_shape)
  /\
  fst (run (Sign (Some ready_Signer) (request "/api/foo" (AInt 1)))
         (fresh (mock (AMap {[ "X-s" := AString "abc" ]}))))
  = Returned (Some {| XS := "abc"; XT := "" |}, None).
Proof.
  split.
  - apply (Sign_result_shape ready_Signer (request "/api/foo" (AInt 1))
             (fresh (mock (AInt 7))) (AInt 7)).
    + apply in_page_returns_mock. reflexivity.
    + intros [m Hm]. discriminate Hm.
  - refine (eq_trans
      (proj2 (Sign_result_shape ready_Signer (request "/api/foo" (AInt 1))
                (fresh (mock (AMap {[ "X-s" := AString "abc" ]})))
                (AMap {[ "X-s" := AString "abc" ]})
                (in_page_returns_mock _ (AInt 1) "/api/foo" eq_refl))
         {[ "X-s" := AString "abc" ]} eq_refl) _).
    reflexivity.
Defined.

(** C3, as stated, fails: the in-page function returns the empty mapping,
    which has neither field, and Sign returns a success result with two empty
    tokens instead of the result-shape error. *)
Lemma Sign_accepts_empty_mapping :
  (∅ : gmap string GoAny) !! "X-s" = None /\
  (∅ : gmap string GoAny) !! "X-t" = None /\
  fst (run (Sign (Some ready_Signer) (request "/api/foo" (AInt 1)))
         (fresh (mock (AMap ∅))))
  = Returned (Some {| XS := ""; XT := "" |}, None) /\
  fst (run (Sign (Some ready_Signer) (request "/api/foo" (AInt 1)))
         (fresh (mock (AMap ∅))))
  <> Returned (None, Some err_result_shape).
Proof. repeat split. discriminate. Qed.

(** C6: when the in-page function returns {"X-s": "abc", "X-t": "123"}, Sign
    succeeds with x-s = "abc" and x-t = "123"; when it returns a value that is
    no key/value object, Sign fails with the result-shape error. *)
Theorem Sign_result_extraction {W : Type} `{!Driver W} (s : Signer)
  (params : SignParams) (st : St W) :
  (in_page_returns s params st
     (AMap {[ "X-s" := AString "abc"; "X-t" := AString "123" ]}) ->
   fst (run (Sign (Some s) params) st)
   = Returned (Some {| XS := "abc"; XT := "123" |}, None))
  /\
  (forall res : GoAny, ~ is_mapping res ->
   in_page_returns s params st res ->
   fst (run (Sign (Some s) params) st) = Returned (None, Some err_result_shape)).
Proof.
  split.
  - intros Hret. rewrite (Sign_after_evaluate s params st _ Hret). reflexivity.
  - intros res Hno Hret. rewrite (Sign_after_evaluate s params st _ Hret).
    destruct res; try reflexivity. exfalso. apply Hno. by eexists.
Qed.

Lemma Sign_result_extraction_witness :
  fst (run (Sign (Some ready_Signer) (request "/api/foo" (AInt 1)))
         (fresh (mock tokens)))
  = Returned (Some {| XS := "abc"; XT := "123" |}, None)
  /\
  fst (run (Sign (Some ready_Signer) (request "/api/foo" (AInt 1)))
         (fresh (mock (AString "abc"))))
  = Returned (None, Some err_result_shape).
Proof.
  split.
  - apply (proj1 (Sign_result_extraction ready_Signer
                    (request "/api/foo" (AInt 1)) (fresh (mock tokens)))).
    apply (in_page_returns_mock tokens (AInt 1) "/api/foo"). reflexivity.
  - apply (proj2 (Sign_result_extraction ready_Signer
                    (request "/api/foo" (AInt 1)) (fresh (mock (AString "abc"))))
             (AString "abc")).
    + intros [m Hm]. discriminate Hm.
    + apply in_page_returns_mock. reflexivity.
Defined.

(** C9: two Sign requests with the same uri and data and any a1 and
    web_session are the same program, hence issue the same operations with the
    same arguments against every driver and end with the same result or
    error. *)
Theorem Sign_ignores_session_tokens (sp : option Signer) (uri : string)
  (data : GoAny) (a1 web_session a1' web_session' : string) :
  Sign sp {| URI := uri; Data := data; A1 := a1; WebSession := web_session |}
  = Sign sp {| URI := uri; Data := data; A1 := a1'; WebSession := web_session' |}
  /\
  forall (W : Type) (D : Driver W) (st : St W),
    run (Sign sp {| URI := uri; Data := data; A1 := a1;
                    WebSession := web_session |}) st
    = run (Sign sp {| URI := uri; Data := data; A1 := a1';
                      WebSession := web_session' |}) st.
Proof. split; reflexivity. Qed.

(** What Sign sends into the page: the uri and the very string
    [json.Marshal] gave for the payload, for the script to [JSON.parse]. *)
Lemma Sign_hands_over_serialized_payload {W : Type} `{!Driver W} (s : Signer)
  (params : SignParams) (st : St W) (p : Page) (dataJSON : string)
  (reply : GoAny * option error) (w1 w2 w3 : W) :
  page s = Some p ->
  handle (Page_Evaluate p probe_js ANil) (world st) = ((ABool true, None), w1) ->
  handle (json_Marshal (Data params)) w1 = ((dataJSON, None), w2) ->
  handle (Page_Evaluate p sign_js
            (ASlice [AString (URI params); AString dataJSON])) w2
  = (reply, w3) ->
  log (snd (run (Sign (Some s) params) st))
  = (log st ++
     [ Ev (Page_Evaluate p probe_js ANil) (ABool true, None);
       Ev (json_Marshal (Data params)) (dataJSON, None);
       Ev (Page_Evaluate p sign_js
             (ASlice [AString (URI params); AString dataJSON])) reply ])%list.
Proof.
  intros Hp H1 H2 H3. unfold Sign. simpl. rewrite Hp. simpl.
  rewrite H1. simpl. rewrite H2. simpl. rewrite H3.
  destruct reply as [res [e|]]; simpl.
  - rewrite <- !app_assoc. reflexivity.
  - destruct res; simpl; rewrite <- !app_assoc; reflexivity.
Qed.

(** ** The gateway *)

(** C8: a body that does not bind is answered 400 with an "error" string; a
    bound request whose Sign returns an error is answered 500 with an "error"
    string; a bound request whose Sign succeeds is answered 200 with the two
    tokens under "x-s" and "x-t". *)
Theorem sign_handler_responses {W : Type} `{!Driver W} (signer : option Signer)
  (request_body : string) (st st1 : St W) (req : SignParams)
  (bind_err : option error) :
  run (call (ShouldBindJSON request_body)) st = (Returned (req, bind_err), st1) ->
  (forall e, bind_err = Some e ->
     fst (run (sign_handler signer request_body) st)
     = Returned {| status := 400;
                   body := gin_H {[ "error" :=
                     AString ("参数解析失败: " +:+ Error e) ]} |})
  /\
  (bind_err = None ->
   forall res e, fst (run (Sign signer req) st1) = Returned (res, Some e) ->
     fst (run (sign_handler signer request_body) st)
     = Returned {| status := 500;
                   body := gin_H {[ "error" :=
                     AString ("签名失败: " +:+ Error e) ]} |})
  /\
  (bind_err = None ->
   forall r, fst (run (Sign signer req) st1) = Returned (Some r, None) ->
     exists resp m,
       fst (run (sign_handler signer request_body) st) = Returned resp /\
       status resp = 200%Z /\
       json_object (body resp) = Some m /\
       m !! "x-s" = Some (AString (XS r)) /\
       m !! "x-t" = Some (AString (XT r))).
Proof.
  intros Hbind.
  assert (Hrun : run (sign_handler signer request_body) st =
    match bind_err with
    | Some e =>
        (Returned {| status := 400;
                     body := gin_H {[ "error" :=
                       AString ("参数解析失败: " +:+ Error e) ]} |}, st1)
    | None =>
        match run (Sign signer req) st1 with
        | (Returned (res, Some e), st2) =>
            (Returned {| status := 500;
                         body := gin_H {[ "error" :=
                           AString ("签名失败: " +:+ Error e) ]} |}, st2)
        | (Returned (res, None), st2) =>
            (Returned {| status := 200; body := BodySignResult res |}, st2)
        | (Panicked r, st2) => (Panicked r, st2)
        end
    end).
  { unfold sign_handler, mbind, Prog_bind. rewrite run_bind, Hbind.
    destruct bind_err as [e|]; [reflexivity|].
    rewrite run_bind.
    destruct (run (Sign signer req) st1) as [[[res [e|]]|r] st2]; reflexivity. }
  rewrite Hrun. repeat split.
  - intros e ->. reflexivity.
  - intros -> res e HS.
    destruct (run (Sign signer req) st1) as [[[res' [e'|]]|r] st2];
      simpl in *; congruence.
  - intros -> r HS.
    destruct (run (Sign signer req) st1) as [[[res' [e'|]]|r'] st2];
      simpl in *; try congruence.
    inversion HS; subst.
    exists {| status := 200; body := BodySignResult (Some r) |},
      (<["x-s" := AString (XS r)]> (<["x-t" := AString (XT r)]> ∅)).
    repeat split.
Qed.

Lemma sign_handler_responses_witness :
  fst (run (sign_handler (Some ready_Signer) "{") (fresh (mock tokens)))
  = Returned {| status := 400;
                body := gin_H {[ "error" :=
                  AString ("参数解析失败: " +:+ "unexpected EOF") ]} |}
  /\
  fst (run (sign_handler (Some zero_Signer) "{}") (fresh (mock tokens)))
  = Returned {| status := 500;
                body := gin_H {[ "error" :=
                  AString ("签名失败: " +:+ "页面未初始化") ]} |}
  /\
  exists resp m,
    fst (run (sign_handler (Some ready_Signer) "{}") (fresh (mock tokens)))
    = Returned resp /\
    status resp = 200%Z /\
    json_object (body resp) = Some m /\
    m !! "x-s" = Some (AString "abc") /\
    m !! "x-t" = Some (AString "123").
Proof.
  assert (Hbind : forall b : string,
    run (call (ShouldBindJSON b)) (fresh (mock tokens))
    = (Returned (bind_some b),
       {| world := mock tokens;
          log := [Ev (ShouldBindJSON b) (bind_some b)] |})).
  { intros b. simpl. unfold handle, Mock_Driver. simpl.
    destruct (bind_some b). reflexivity. }
  split; [|split].
  - apply (proj1 (sign_handler_responses (Some ready_Signer) "{"
                    (fresh (mock tokens)) _ _ _ (Hbind "{"))
             (errors_New "unexpected EOF") eq_refl).
  - apply (proj1 (proj2 (sign_handler_responses (Some zero_Signer) "{}"
                    (fresh (mock tokens)) _ _ _ (Hbind "{}")))
             eq_refl None err_page_uninitialised eq_refl).
  - apply (proj2 (proj2 (sign_handler_responses (Some ready_Signer) "{}"
                    (fresh (mock tokens)) _ _ _ (Hbind "{}")))
             eq_refl {| XS := "abc"; XT := "123" |} eq_refl).
Defined.

(** ** Close *)

(** C7: on a Signer with all four handles, Close closes the page, then the
    context, then the browser, then stops the runtime; the four operations
    are issued whatever the earlier ones answer, and Close returns the first
    error among the four answers (with the prefix of its step), nil when all
    four are nil. *)
Theorem Close_releases_in_order {W : Type} `{!Driver W} (r : PlaywrightH)
  (b : Browser) (c : BrowserContext) (p : Page) (path : string) (once : bool)
  (ierr : option error) (st : St W) :
  exists (e1 e2 e3 e4 : option error) (st' : St W),
    run (Close (Some {| pw := Some r; browser := Some b; context := Some c;
                        page := Some p; stealthJS := path; initOnce := once;
                        initErr := ierr |})) st
    = (Returned (first_error [ ("关闭页面失败: ", e1);
                               ("关闭浏览器上下文失败: ", e2);
                               ("关闭浏览器失败: ", e3);
                               ("关闭 Playwright 失败: ", e4) ]), st') /\
    log st' = (log st ++ [ Ev (Page_Close p) e1; Ev (Context_Close c) e2;
                           Ev (Browser_Close b) e3; Ev (Playwright_Stop r) e4 ])%list.
Proof.
  unfold Close. simpl.
  destruct (handle (Page_Close p) (world st)) as [e1 w1]. simpl.
  destruct (handle (Context_Close c) w1) as [e2 w2]. simpl.
  destruct (handle (Browser_Close b) w2) as [e3 w3]. simpl.
  destruct (handle (Playwright_Stop r) w3) as [e4 w4]. simpl.
  exists e1, e2, e3, e4. eexists. split.
  - destruct e1, e2, e3, e4; reflexivity.
  - simpl. rewrite <- !app_assoc. reflexivity.
Qed.

(** C10: on every Signer, whichever of its handles are nil, Close returns
    without a panic and issues the release operations of exactly the non-nil
    handles, in the order page, context, browser, runtime; when all four
    handles are nil it issues nothing and returns nil. *)
Theorem Close_skips_nil_handles {W : Type} `{!Driver W} (s : Signer)
  (st : St W) :
  (exists (ret e1 e2 e3 e4 : option error) (st' : St W),
     run (Close (Some s)) st = (Returned ret, st') /\
     log st' = (log st ++ releases s e1 e2 e3 e4)%list)
  /\
  (page s = None -> context s = None -> browser s = None -> pw s = None ->
   run (Close (Some s)) st = (Returned None, st)).
Proof.
  split.
  - unfold Close, releases. simpl.
    destruct (page s) as [p|], (context s) as [c|], (browser s) as [b|],
      (pw s) as [r|]; simpl; repeat answer.
    all: eexists _, _, _, _, _, _; split; [reflexivity|]; simpl.
    all: rewrite <- ?app_assoc, ?app_nil_r; try reflexivity.
    Unshelve. all: exact None.
  - intros Hp Hc Hb Hr. unfold Close. simpl. rewrite Hp, Hc, Hb, Hr.
    reflexivity.
Qed.

Lemma Close_skips_nil_handles_witness :
  run (Close (Some zero_Signer)) (fresh closing_mock)
  = (Returned None, fresh closing_mock).
Proof.
  apply (proj2 (Close_skips_nil_handles zero_Signer (fresh closing_mock)));
    reflexivity.
Defined.

Example Close_on_mock :
  run (Close (Some ready_Signer)) (fresh closing_mock)
  = (Returned (Some (fmt_Errorf_w "关闭页面失败: " (errors_New "target closed"))),
     {| world := closing_mock;
        log := [ Ev (Page_Close (PageH 0)) (Some (errors_New "target closed"));
                 Ev (Context_Close (ContextH 0)) None;
                 Ev (Browser_Close (BrowserH 0))
                   (Some (errors_New "connection lost"));
                 Ev (Playwright_Stop (PwH 0)) None ] |}).
Proof. reflexivity. Qed.

Example Close_after_failed_launch :
  run (Close (Some (set_pw (Some (PwH 0)) zero_Signer))) (fresh closing_mock)
  = (Returned None,
     {| world := closing_mock; log := [ Ev (Playwright_Stop (PwH 0)) None ] |}).
Proof. reflexivity. Qed.

(** ** NewSigner *)




(** C4, as the code has it: once initialization has failed at any stage,
    NewSigner hands back the error and a nil Signer.  A Sign call through
    that nil Signer touches neither the page nor anything else, but it panics
    on the nil dereference instead of returning an error.  The error return
    without page interaction is what Sign gives on a Signer whose page handle
    is nil. *)
Theorem Sign_after_failed_NewSigner {W : Type} `{!Driver W} (path : string)
  (st st1 : St W) (sp : option Signer) (e : error) :
  run (NewSigner path) st = (Returned (sp, Some e), st1) ->
  sp = None
  /\
  (forall (params : SignParams) (st' : St W),
     run (Sign sp params) st' = (Panicked nil_dereference, st'))
  /\
  (forall (s : Signer) (params : SignParams) (st' : St W),
     page s = None ->
     run (Sign (Some s) params) st'
     = (Returned (None, Some err_page_uninitialised), st')).
Proof.
  intros Hnew.
  assert (Hsp : sp = None).
  { revert Hnew. unfold NewSigner, mbind, Prog_bind. rewrite run_bind.
    destruct (run (Once_Do zero_Signer (init_body path)) st) as [[s|r] st2];
      [|discriminate].
    destruct (initErr s); simpl; intros Heq; by inversion Heq. }
  subst sp. repeat split.
  intros s params st' Hp. unfold Sign. simpl. rewrite Hp. reflexivity.
Qed.

Lemma Sign_after_failed_NewSigner_witness :
  run (Sign None (request "/api/foo" (AInt 1))) (fresh broken_mock)
  = (Panicked nil_dereference, fresh broken_mock)
  /\
  run (Sign (Some zero_Signer) (request "/api/foo" (AInt 1))) (fresh broken_mock)
  = (Returned (None, Some err_page_uninitialised), fresh broken_mock).
Proof.
  assert (Hnew : run (NewSigner "./stealth.min.js") (fresh broken_mock)
    = (Returned (None, Some (fmt_Errorf_w "启动 Playwright 失败: "
                               (errors_New "could not start driver"))),
       snd (run (NewSigner "./stealth.min.js") (fresh broken_mock))))
    by reflexivity.
  destruct (Sign_after_failed_NewSigner _ _ _ _ _ Hnew) as (_ & Hnil & Hzero).
  split.
  - apply Hnil.
  - apply Hzero. reflexivity.
Defined.

(** C4, as stated, fails: the launch fails, NewSigner returns a nil Signer
    with the error, and the Sign call that follows does not return an error:
    it panics (without any operation on the page). *)
Lemma Sign_after_failed_init_panics :
  fst (run (NewSigner "./stealth.min.js") (fresh broken_mock))
  = Returned (None, Some (fmt_Errorf_w "启动 Playwright 失败: "
                            (errors_New "could not start driver")))
  /\
  fst (run (Sign None (request "/api/foo" (AInt 1)))
         (snd (run (NewSigner "./stealth.min.js") (fresh broken_mock))))
  = Panicked nil_dereference
  /\
  ~ (exists res err,
       fst (run (Sign None (request "/api/foo" (AInt 1)))
              (snd (run (NewSigner "./stealth.min.js") (fresh broken_mock))))
       = Returned (res, Some err)).
Proof.
  repeat split. intros (res & err & H). discriminate H.
Qed.

(** ** Concurrent calls of Sign *)










(** * Further properties of sign.go and http.go *)

(** ** NewSigner: the launch sequence *)

Lemma released_snoc (l : list Event) (e : Event) :
  released (l ++ [e]) = released l + (if is_release e then 1 else 0).
Proof.
  unfold released. rewrite filter_app, length_app. f_equal.
  rewrite filter_cons, filter_nil.
  destruct (is_release e); case_decide; simpl; congruence.
Qed.

Lemma NewSigner_success_inv {W : Type} `{!Driver W} (path : string)
  (st st1 : St W) (s : Signer) :
  run (NewSigner path) st = (Returned (Some s, None), st1) ->
  exists r b c p cookies,
    s = {| pw := Some r; browser := Some b; context := Some c; page := Some p;
           stealthJS := path; initOnce := true; initErr := None |} /\
    log st1 = (log st ++ launch_events path r b c p cookies)%list.
Proof.
  unfold NewSigner, Once_Do, init_body, mbind, Prog_bind. simpl.
  all_answers.
  all: intros Heq; try discriminate Heq.
  all: inversion Heq; subst; clear Heq.
  eexists _, _, _, _, _. split; [reflexivity|].
  simpl. rewrite <- !app_assoc. reflexivity.
Qed.

(** X1: a Signer handed out by NewSigner has all four handles set, carries
    the path it was given and no initialization error. *)
Theorem NewSigner_hands_out_complete_Signer {W : Type} `{!Driver W}
  (path : string) (st st1 : St W) (s : Signer) :
  run (NewSigner path) st = (Returned (Some s, None), st1) ->
  (exists r b c p,
     pw s = Some r /\ browser s = Some b /\ context s = Some c /\
     page s = Some p) /\
  stealthJS s = path /\ initErr s = None.
Proof.
  intros Hnew.
  destruct (NewSigner_success_inv path st st1 s Hnew)
    as (r & b & c & p & cookies & -> & _).
  split; [|done]. by exists r, b, c, p.
Qed.

Lemma NewSigner_hands_out_complete_Signer_witness :
  (exists r b c p,
     pw ready_Signer = Some r /\ browser ready_Signer = Some b /\
     context ready_Signer = Some c /\ page ready_Signer = Some p) /\
  stealthJS ready_Signer = "./stealth.min.js" /\ initErr ready_Signer = None.
Proof.
  apply (NewSigner_hands_out_complete_Signer "./stealth.min.js"
           (fresh (mock tokens))
           (snd (run (NewSigner "./stealth.min.js") (fresh (mock tokens))))
           ready_Signer).
  reflexivity.
Defined.

(** X2: a launch that succeeds has issued exactly eight operations, in this
    order: start the runtime, launch the browser headless on it, create a
    context in that browser, stat the stealth script, register the script in
    the context, open a page in the context, navigate the page to the site,
    read the cookies.  The script is registered before the page exists. *)
Theorem NewSigner_launch_order {W : Type} `{!Driver W} (path : string)
  (st st1 : St W) (s : Signer) :
  run (NewSigner path) st = (Returned (Some s, None), st1) ->
  exists r b c p cookies,
    pw s = Some r /\ browser s = Some b /\ context s = Some c /\
    page s = Some p /\
    log st1 =
    (log st ++
     [ Ev playwright_Run (Some r, None);
       Ev (Chromium_Launch r true) (Some b, None);
       Ev (Browser_NewContext b) (Some c, None);
       Ev (os_Stat path) None;
       Ev (Context_AddInitScript c path) None;
       Ev (Context_NewPage c) (Some p, None);
       Ev (Page_Goto p "https://www.xiaohongshu.com") None;
       Ev (Context_Cookies c) cookies ])%list.
Proof.
  intros Hnew.
  destruct (NewSigner_success_inv path st st1 s Hnew)
    as (r & b & c & p & cookies & -> & Hlog).
  exists r, b, c, p, cookies. by repeat split.
Qed.

Lemma NewSigner_launch_order_witness :
  exists r b c p cookies,
    pw ready_Signer = Some r /\ browser ready_Signer = Some b /\
    context ready_Signer = Some c /\ page ready_Signer = Some p /\
    log (snd (run (NewSigner "./stealth.min.js") (fresh (mock tokens)))) =
    ([] ++
     [ Ev playwright_Run (Some r, None);
       Ev (Chromium_Launch r true) (Some b, None);
       Ev (Browser_NewContext b) (Some c, None);
       Ev (os_Stat "./stealth.min.js") None;
       Ev (Context_AddInitScript c "./stealth.min.js") None;
       Ev (Context_NewPage c) (Some p, None);
       Ev (Page_Goto p "https://www.xiaohongshu.com") None;
       Ev (Context_Cookies c) cookies ])%list.
Proof.
  apply (NewSigner_launch_order "./stealth.min.js" (fresh (mock tokens))
           (snd (run (NewSigner "./stealth.min.js") (fresh (mock tokens))))
           ready_Signer).
  reflexivity.
Defined.

(** X3: when NewSigner returns an error, the launch stopped at the first
    operation that answered an error: that operation is the last one issued,
    every operation before it answered no error, and the error returned is
    the answered one behind the text of its stage. *)
Theorem NewSigner_stops_at_first_failure {W : Type} `{!Driver W}
  (path : string) (st st1 : St W) (sp : option Signer) (e : error) :
  run (NewSigner path) st = (Returned (sp, Some e), st1) ->
  exists evs failed cause,
    log st1 = (log st ++ evs)%list /\
    last evs = Some failed /\
    event_error failed = Some cause /\
    e = fmt_Errorf_w (stage_prefix failed) cause /\
    Forall (fun ev => event_error ev = None) (take (length evs - 1) evs).
Proof.
  unfold NewSigner, Once_Do, init_body, mbind, Prog_bind. simpl.
  all_answers.
  all: intros Heq; try discriminate Heq.
  all: inversion Heq; subst; clear Heq.
  all: rewrite <- ?app_assoc; simpl.
  all: eexists _, _, _; split; [reflexivity|]; simpl.
  all: repeat split; repeat constructor.
Qed.

Lemma NewSigner_stops_at_first_failure_witness :
  exists evs failed cause,
    log (snd (run (NewSigner "./stealth.min.js") (fresh stalled_mock)))
    = ([] ++ evs)%list /\
    last evs = Some failed /\
    event_error failed = Some cause /\
    fmt_Errorf_w "跳转小红书首页失败: " (errors_New "net::ERR_NAME_NOT_RESOLVED")
    = fmt_Errorf_w (stage_prefix failed) cause /\
    Forall (fun ev => event_error ev = None) (take (length evs - 1) evs).
Proof.
  apply (NewSigner_stops_at_first_failure "./stealth.min.js"
           (fresh stalled_mock)
           (snd (run (NewSigner "./stealth.min.js") (fresh stalled_mock)))
           None).
  reflexivity.
Defined.

(** X4: reading the cookies is best effort.  When the seven stages before it
    answer without error and with the handles they are asked for, NewSigner
    returns the Signer on these handles, whatever the cookie read answers. *)
Theorem NewSigner_cookie_read_not_fatal {W : Type} `{!Driver W}
  (path : string) (st : St W) (r : PlaywrightH) (b : Browser)
  (c : BrowserContext) (p : Page) (w1 w2 w3 w4 w5 w6 w7 : W) :
  handle playwright_Run (world st) = ((Some r, None), w1) ->
  handle (Chromium_Launch r true) w1 = ((Some b, None), w2) ->
  handle (Browser_NewContext b) w2 = ((Some c, None), w3) ->
  handle (os_Stat path) w3 = (None, w4) ->
  handle (Context_AddInitScript c path) w4 = (None, w5) ->
  handle (Context_NewPage c) w5 = ((Some p, None), w6) ->
  handle (Page_Goto p home_url) w6 = (None, w7) ->
  fst (run (NewSigner path) st)
  = Returned (Some {| pw := Some r; browser := Some b; context := Some c;
                      page := Some p; stealthJS := path; initOnce := true;
                      initErr := None |}, None).
Proof.
  intros H1 H2 H3 H4 H5 H6 H7.
  unfold NewSigner, Once_Do, init_body, mbind, Prog_bind. simpl.
  rewrite H1. simpl. rewrite H2. simpl. rewrite H3. simpl. rewrite H4. simpl.
  rewrite H5. simpl. rewrite H6. simpl. rewrite H7. simpl.
  destruct (handle (Context_Cookies c) w7) as [[cookies cerr] w8].
  reflexivity.
Qed.

Lemma NewSigner_cookie_read_not_fatal_witness :
  fst (run (NewSigner "./stealth.min.js") (fresh (mock tokens)))
  = Returned (Some {| pw := Some (PwH 0); browser := Some (BrowserH 0);
                      context := Some (ContextH 0); page := Some (PageH 0);
                      stealthJS := "./stealth.min.js"; initOnce := true;
                      initErr := None |}, None).
Proof.
  apply (NewSigner_cookie_read_not_fatal "./stealth.min.js"
           (fresh (mock tokens)) (PwH 0) (BrowserH 0) (ContextH 0) (PageH 0)
           (count_run (mock tokens)) (count_run (mock tokens))
           (count_run (mock tokens)) (count_run (mock tokens))
           (count_run (mock tokens)) (count_run (mock tokens))
           (count_run (mock tokens)));
    reflexivity.
Defined.

(** X5: NewSigner releases nothing.  Whether the launch succeeds, fails at
    some stage or panics, it issues no close of a page, context or browser
    and no stop of the runtime: what a failed launch had opened stays open. *)
Theorem NewSigner_releases_nothing {W : Type} `{!Driver W} (path : string)
  (st : St W) :
  released (log (snd (run (NewSigner path) st))) = released (log st).
Proof.
  unfold NewSigner, Once_Do, init_body, mbind, Prog_bind. simpl.
  all_answers.
  all: rewrite ?released_snoc; simpl; lia.
Qed.

Example NewSigner_leaves_browser_open :
  released (log (snd (run (NewSigner "./stealth.min.js") (fresh stalled_mock))))
  = 0.
Proof. reflexivity. Qed.

(** ** Sign: outcomes and operations *)

Lemma Sign_outcome {W : Type} `{!Driver W} (s : Signer) (params : SignParams)
  (st : St W) :
  (exists r st', run (Sign (Some s) params) st = (Returned (Some r, None), st'))
  \/
  (exists e st', run (Sign (Some s) params) st = (Returned (None, Some e), st')
                 /\ Sign_error e).
Proof.
  unfold Sign, Sign_error, mbind, Prog_bind. simpl.
  destruct (page s) as [p|]; simpl.
  - every_answer.
    all: first [ left; by eexists _, _
               | right; eexists _, _; split;
                 [reflexivity| unfold err_not_injected, err_result_shape,
                                 err_page_uninitialised; naive_solver] ].
  - right. eexists _, _. split; [reflexivity|]. by left.
Qed.

(** X6: on a Signer that is not nil, Sign never panics and never returns
    both or neither of result and error: it returns a result with a nil
    error, or a nil result with one of six errors (page not initialised,
    probe failed, function not injected, serialisation failed, evaluation
    failed, result of the wrong shape). *)
Theorem Sign_result_or_error {W : Type} `{!Driver W} (s : Signer)
  (params : SignParams) (st : St W) :
  exists st',
    (exists r, run (Sign (Some s) params) st = (Returned (Some r, None), st'))
    \/
    (exists e, run (Sign (Some s) params) st = (Returned (None, Some e), st')
               /\ Sign_error e).
Proof.
  destruct (Sign_outcome s params st) as [(r & st' & H)|(e & st' & H & He)];
    exists st'; [left | right]; eauto.
Qed.

Lemma Sign_success_inv {W : Type} `{!Driver W} (s : Signer)
  (params : SignParams) (st st' : St W) (r : SignResult) :
  run (Sign (Some s) params) st = (Returned (Some r, None), st') ->
  exists p dataJSON m,
    page s = Some p /\
    log st' =
    (log st ++
     [ Ev (Page_Evaluate p probe_js ANil) (ABool true, None);
       Ev (json_Marshal (Data params)) (dataJSON, None);
       Ev (Page_Evaluate p sign_js
             (ASlice [AString (URI params); AString dataJSON]))
          (AMap m, None) ])%list /\
    r = {| XS := string_field m "X-s"; XT := string_field m "X-t" |}.
Proof.
  unfold Sign, mbind, Prog_bind. simpl.
  destruct (page s) as [p|]; simpl; [|discriminate].
  every_answer.
  all: intros Heq; try discriminate Heq.
  inversion Heq; subst; clear Heq.
  eexists _, _, _. split; [reflexivity|]. split; [|reflexivity].
  simpl. rewrite <- !app_assoc. reflexivity.
Qed.

(** X7: a result of Sign always comes out of the page.  When Sign returns a
    result, it has issued exactly three operations: the probe, answered true;
    the serialisation of the payload, answered without error; and the
    evaluation of the signing script on the uri and the serialised payload,
    answered with a mapping, from whose "X-s" and "X-t" the result is read. *)
Theorem Sign_success_comes_from_page {W : Type} `{!Driver W} (s : Signer)
  (params : SignParams) (st st' : St W) (r : SignResult) :
  run (Sign (Some s) params) st = (Returned (Some r, None), st') ->
  exists p dataJSON m,
    page s = Some p /\
    log st' =
    (log st ++
     [ Ev (Page_Evaluate p probe_js ANil) (ABool true, None);
       Ev (json_Marshal (Data params)) (dataJSON, None);
       Ev (Page_Evaluate p sign_js
             (ASlice [AString (URI params); AString dataJSON]))
          (AMap m, None) ])%list /\
    XS r = match m !! "X-s" with Some (AString v) => v | _ => "" end /\
    XT r = match m !! "X-t" with Some (AString v) => v | _ => "" end.
Proof.
  intros Hrun.
  destruct (Sign_success_inv s params st st' r Hrun)
    as (p & dataJSON & m & Hp & Hlog & ->).
  by exists p, dataJSON, m.
Qed.

Lemma Sign_success_comes_from_page_witness :
  exists p dataJSON m,
    page ready_Signer = Some p /\
    log (snd (run (Sign (Some ready_Signer) (request "/api/foo" (AInt 1)))
                (fresh (mock tokens)))) =
    ([] ++
     [ Ev (Page_Evaluate p probe_js ANil) (ABool true, None);
       Ev (json_Marshal (AInt 1)) (dataJSON, None);
       Ev (Page_Evaluate p sign_js
             (ASlice [AString "/api/foo"; AString dataJSON]))
          (AMap m, None) ])%list /\
    "abc" = match m !! "X-s" with Some (AString v) => v | _ => "" end /\
    "123" = match m !! "X-t" with Some (AString v) => v | _ => "" end.
Proof.
  apply (Sign_success_comes_from_page ready_Signer
           (request "/api/foo" (AInt 1)) (fresh (mock tokens))
           (snd (run (Sign (Some ready_Signer) (request "/api/foo" (AInt 1)))
                   (fresh (mock tokens))))
           {| XS := "abc"; XT := "123" |}).
  reflexivity.
Defined.

(** X8: when the probe answers an error, or anything but true, Sign stops
    there: the probe is the only operation it issues, nothing is serialised
    and the signing script is not evaluated.  It returns the probe's error
    behind its text, or the error that the function is not injected. *)
Theorem Sign_stops_at_failed_probe {W : Type} `{!Driver W} (s : Signer)
  (params : SignParams) (st : St W) (p : Page) (v : GoAny)
  (err : option error) (w1 : W) :
  page s = Some p ->
  handle (Page_Evaluate p probe_js ANil) (world st) = ((v, err), w1) ->
  err <> None \/ v <> ABool true ->
  run (Sign (Some s) params) st
  = (Returned (None,
       Some match err with
            | Some e => fmt_Errorf_w "检查 window._webmsxyw 失败: " e
            | None => errors_New "window._webmsxyw 未定义或未注入签名 JS"
            end),
     {| world := w1;
        log := log st ++ [Ev (Page_Evaluate p probe_js ANil) (v, err)] |}).
Proof.
  intros Hp Hprobe Hbad. unfold Sign, mbind, Prog_bind. simpl.
  rewrite Hp. simpl. rewrite Hprobe. simpl.
  destruct err as [e|]; simpl; [reflexivity|].
  destruct Hbad as [Hbad|Hbad]; [done|].
  destruct v as [| [|] | | | | | |]; simpl; try reflexivity. done.
Qed.

Lemma Sign_stops_at_failed_probe_witness :
  run (Sign (Some ready_Signer) (request "/api/foo" (AInt 1))) (fresh bare_mock)
  = (Returned (None, Some (errors_New "window._webmsxyw 未定义或未注入签名 JS")),
     {| world := bare_mock;
        log := [] ++ [ Ev (Page_Evaluate (PageH 0) probe_js ANil)
                         (ABool false, None) ] |}).
Proof.
  apply (Sign_stops_at_failed_probe ready_Signer (request "/api/foo" (AInt 1))
           (fresh bare_mock) (PageH 0) (ABool false) None bare_mock).
  - reflexivity.
  - reflexivity.
  - right. discriminate.
Defined.

(** X9: when the payload does not serialise, Sign stops there: it has issued
    the probe and the serialisation only, the signing script is not
    evaluated, and it returns the serialisation error behind its text. *)
Theorem Sign_stops_at_failed_Marshal {W : Type} `{!Driver W} (s : Signer)
  (params : SignParams) (st : St W) (p : Page) (dataJSON : string)
  (e : error) (w1 w2 : W) :
  page s = Some p ->
  handle (Page_Evaluate p probe_js ANil) (world st) = ((ABool true, None), w1) ->
  handle (json_Marshal (Data params)) w1 = ((dataJSON, Some e), w2) ->
  run (Sign (Some s) params) st
  = (Returned (None, Some (fmt_Errorf_w "data 参数序列化失败: " e)),
     {| world := w2;
        log := (log st ++ [Ev (Page_Evaluate p probe_js ANil) (ABool true, None)])
               ++ [Ev (json_Marshal (Data params)) (dataJSON, Some e)] |}).
Proof.
  intros Hp Hprobe Hm. unfold Sign, mbind, Prog_bind. simpl.
  rewrite Hp. simpl. rewrite Hprobe. simpl. rewrite Hm. reflexivity.
Qed.

Lemma Sign_stops_at_failed_Marshal_witness :
  run (Sign (Some ready_Signer) (request "/api/foo" (AOther "chan int")))
    (fresh (mock tokens))
  = (Returned (None, Some (fmt_Errorf_w "data 参数序列化失败: "
                             (errors_New "json: unsupported value"))),
     {| world := mock tokens;
        log := ([] ++ [Ev (Page_Evaluate (PageH 0) probe_js ANil)
                         (ABool true, None)])
               ++ [Ev (json_Marshal (AOther "chan int"))
                     ("", Some (errors_New "json: unsupported value"))] |}).
Proof.
  apply (Sign_stops_at_failed_Marshal ready_Signer
           (request "/api/foo" (AOther "chan int")) (fresh (mock tokens))
           (PageH 0) "" (errors_New "json: unsupported value")
           (mock tokens) (mock tokens)); reflexivity.
Defined.

(** ** Sign: one call among concurrent ones *)

Lemma replays_refl {A : Type} (p : Prog A) : replays p [] p.
Proof. destruct p; simpl; auto. Qed.

Lemma replays_snoc {A X : Type} (p0 : Prog A) (evs : list Event) (op : Op X)
  (k : X -> Prog A) (x : X) :
  replays p0 evs (Vis op k) -> replays p0 (evs ++ [Ev op x]) (k x).
Proof.
  revert evs. induction p0 as [a | r | X0 op0 k0 IH]; intros evs Hre.
  - destruct Hre as [_ Heq]. discriminate Heq.
  - destruct Hre as [_ Heq]. discriminate Heq.
  - destruct Hre as [[-> Heq] | (x0 & evs' & -> & Hre)].
    + rewrite <- Heq. simpl. right. exists x, []. split; [reflexivity|].
      apply replays_refl.
    + simpl. right. exists x0, (evs' ++ [Ev op x])%list. split; [reflexivity|].
      by apply IH.
Qed.

Lemma events_of_snoc (tid tid' : nat) (tr : list (nat * Event)) (e : Event) :
  events_of tid (tr ++ [(tid', e)]) =
  if decide (tid' = tid) then (events_of tid tr ++ [e])%list
  else events_of tid tr.
Proof.
  unfold events_of. rewrite filter_app, fmap_app, filter_cons, filter_nil.
  simpl. destruct (decide (tid' = tid)); simpl; [reflexivity|].
  by rewrite app_nil_r.
Qed.

Lemma step_replays {W : Type} `{!Driver W} {A : Type} (tid' tid : nat)
  (c : Pool W A) (p0 : Prog A) :
  (exists p, threads c !! tid = Some p /\
             replays p0 (events_of tid (trace c)) p) ->
  exists p, threads (step tid' c) !! tid = Some p /\
            replays p0 (events_of tid (trace (step tid' c))) p.
Proof.
  intros (p & Hp & Hre). unfold step.
  destruct (threads c !! tid') as [[a | r | X op k]|] eqn:Hl; eauto.
  destruct (handle op (shared c)) as [x w]. simpl.
  rewrite events_of_snoc. destruct (decide (tid' = tid)) as [->|Hne].
  - rewrite Hl in Hp. injection Hp as <-.
    exists (k x). split; [|by apply replays_snoc].
    apply list_lookup_insert_eq. by eapply lookup_lt_Some.
  - exists p. by rewrite list_lookup_insert_ne.
Qed.

Lemma schedule_replays {W : Type} `{!Driver W} {A : Type} (sched : list nat)
  (tid : nat) (c : Pool W A) (p0 : Prog A) :
  (exists p, threads c !! tid = Some p /\
             replays p0 (events_of tid (trace c)) p) ->
  exists p, threads (schedule sched c) !! tid = Some p /\
            replays p0 (events_of tid (trace (schedule sched c))) p.
Proof.
  revert c. induction sched as [|tid' rest IH]; intros c Hc; [done|].
  simpl. apply IH. by apply step_replays.
Qed.

Lemma Sign_replays_prefix (s : Signer) (params : SignParams)
  (evs : list Event) (p : Prog (option SignResult * option error)) :
  replays (Sign (Some s) params) evs p -> Sign_call_prefix s params evs.
Proof.
  unfold Sign, Sign_call_prefix, mbind, Prog_bind. simpl.
  destruct (page s) as [pg|]; simpl; [|intros [-> _]; by left].
  intros [[-> _] | ([v err] & evs1 & -> & H1)]; [by left|].
  right. exists pg. split; [reflexivity|].
  destruct err as [e|]; simpl in H1.
  { destruct H1 as [-> _]. left. by eexists. }
  destruct v as [| [|] | | | | | |]; simpl in H1;
    try (destruct H1 as [-> _]; left; by eexists).
  destruct H1 as [[-> _] | ([dataJSON err] & evs2 & -> & H2)];
    [left; by eexists|].
  right. destruct err as [e|]; simpl in H2.
  { destruct H2 as [-> _]. left. by eexists. }
  destruct H2 as [[-> _] | ([res err] & evs3 & -> & H3)];
    [left; by eexists|].
  right. exists dataJSON, (res, err).
  assert (evs3 = []) as ->; [|reflexivity].
  destruct err as [e|]; simpl in H3; [by destruct H3|].
  destruct res; simpl in H3; by destruct H3.
Qed.

(** X10: however the goroutines that call Sign on one Signer interleave, the
    operations of each single call keep their order: the call issues nothing,
    or the probe, or the probe (answered true) and the serialisation of its
    own payload, or these two (answered without error) and one evaluation of
    the signing script on its own uri and its own serialised payload.  No
    call evaluates the signing script before its own probe has found the
    function, and none evaluates it twice. *)
Theorem Sign_call_order_in_every_schedule {W : Type} `{!Driver W} (s : Signer)
  (reqs : list SignParams) (w : W) (sched : list nat) (tid : nat)
  (req : SignParams) :
  reqs !! tid = Some req ->
  Sign_call_prefix s req
    (events_of tid
       (trace (schedule sched (spawn (Sign (Some s) <$> reqs) w)))).
Proof.
  intros Hreq.
  destruct (schedule_replays sched tid (spawn (Sign (Some s) <$> reqs) w)
              (Sign (Some s) req)) as (p & _ & Hre).
  - exists (Sign (Some s) req). split; [|apply replays_refl].
    simpl. by rewrite list_lookup_fmap, Hreq.
  - by eapply Sign_replays_prefix.
Qed.

Lemma Sign_call_order_in_every_schedule_witness :
  Sign_call_prefix ready_Signer (request "/api/b" ANil)
    (events_of 1
       (trace (schedule [0; 1; 0; 0; 1; 1]
                 (spawn (Sign (Some ready_Signer) <$>
                           [request "/api/a" (AInt 1); request "/api/b" ANil])
                    (mock tokens))))).
Proof.
  apply (Sign_call_order_in_every_schedule ready_Signer
           [request "/api/a" (AInt 1); request "/api/b" ANil] (mock tokens)
           [0; 1; 0; 0; 1; 1] 1 (request "/api/b" ANil)).
  reflexivity.
Defined.

Example events_of_second_call :
  events_of 1
    (trace (schedule [0; 1; 0; 0; 1; 1]
              (spawn (Sign (Some ready_Signer) <$>
                        [request "/api/a" (AInt 1); request "/api/b" ANil])
                 (mock tokens))))
  = [ Ev (Page_Evaluate (PageH 0) probe_js ANil) (ABool true, None);
      Ev (json_Marshal ANil) ("null", None);
      Ev (Page_Evaluate (PageH 0) sign_js
            (ASlice [AString "/api/b"; AString "null"])) (tokens, None) ].
Proof. reflexivity. Qed.

(** ** Close: what it returns and what it leaves *)

Lemma first_error_None (steps : list (string * option error)) :
  first_error steps = None <-> Forall (fun step => snd step = None) steps.
Proof.
  induction steps as [|[prefix [e|]] steps IH]; simpl.
  - split; [constructor | done].
  - split; [done|]. intros Hall. inversion Hall; subst. discriminate.
  - rewrite IH. split.
    + intros Hall. by constructor.
    + intros Hall. by inversion Hall.
Qed.

Lemma Close_run {W : Type} `{!Driver W} (s : Signer) (st : St W) :
  exists (ret : option error) (st' : St W) (e1 e2 e3 e4 : option error),
    run (Close (Some s)) st = (Returned ret, st') /\
    log st' = (log st ++ releases s e1 e2 e3 e4)%list /\
    ret = first_error ((fun ev => (stage_prefix ev, event_error ev))
                         <$> releases s e1 e2 e3 e4).
Proof.
  unfold Close, releases, mbind, Prog_bind. simpl.
  destruct (page s) as [p|], (context s) as [c|], (browser s) as [b|],
    (pw s) as [r|]; simpl; repeat answer.
  all: repeat match goal with x : option error |- _ => destruct x end.
  all: eexists _, _, _, _, _, _; split; [reflexivity|]; simpl.
  all: split; [rewrite <- ?app_assoc, ?app_nil_r; reflexivity | reflexivity].
  Unshelve. all: exact None.
Qed.

(** X11: on every Signer that is not nil, Close returns the first error
    among the release operations it issued, behind the text of that step, and
    so returns nil exactly when every release it issued answered nil. *)
Theorem Close_fails_iff_a_release_fails {W : Type} `{!Driver W} (s : Signer)
  (st : St W) :
  exists (ret : option error) (st' : St W) (evs : list Event),
    run (Close (Some s)) st = (Returned ret, st') /\
    log st' = (log st ++ evs)%list /\
    ret = first_error ((fun ev => (stage_prefix ev, event_error ev)) <$> evs) /\
    (ret = None <-> Forall (fun ev => event_error ev = None) evs).
Proof.
  destruct (Close_run s st) as (ret & st' & e1 & e2 & e3 & e4 & Hrun & Hlog & Hret).
  exists ret, st', (releases s e1 e2 e3 e4). repeat split; try done.
  - intros Hnil. rewrite Hret in Hnil. apply first_error_None in Hnil.
    by rewrite Forall_fmap in Hnil.
  - intros Hall. rewrite Hret. apply first_error_None.
    by rewrite Forall_fmap.
Qed.

(** X12: the life of a Signer.  After a NewSigner that succeeded, Close
    issues all four releases, on the very handles the launch made and in the
    opposite order of their making: the page, its context, the browser, the
    runtime. *)
Theorem Close_after_NewSigner_releases_all {W : Type} `{!Driver W}
  (path : string) (st st1 : St W) (s : Signer) :
  run (NewSigner path) st = (Returned (Some s, None), st1) ->
  exists r b c p cookies e1 e2 e3 e4 ret st2,
    run (Close (Some s)) st1 = (Returned ret, st2) /\
    log st2 =
    (log st ++
     [ Ev playwright_Run (Some r, None);
       Ev (Chromium_Launch r true) (Some b, None);
       Ev (Browser_NewContext b) (Some c, None);
       Ev (os_Stat path) None;
       Ev (Context_AddInitScript c path) None;
       Ev (Context_NewPage c) (Some p, None);
       Ev (Page_Goto p "https://www.xiaohongshu.com") None;
       Ev (Context_Cookies c) cookies ] ++
     [ Ev (Page_Close p) e1; Ev (Context_Close c) e2;
       Ev (Browser_Close b) e3; Ev (Playwright_Stop r) e4 ])%list.
Proof.
  intros Hnew.
  destruct (NewSigner_success_inv path st st1 s Hnew)
    as (r & b & c & p & cookies & -> & Hlog).
  destruct (Close_run {| pw := Some r; browser := Some b; context := Some c;
                         page := Some p; stealthJS := path; initOnce := true;
                         initErr := None |} st1)
    as (ret & st2 & e1 & e2 & e3 & e4 & Hrun & Hlog2 & _).
  exists r, b, c, p, cookies, e1, e2, e3, e4, ret, st2.
  split; [done|]. rewrite Hlog2, Hlog, <- app_assoc. reflexivity.
Qed.

Lemma Close_after_NewSigner_releases_all_witness :
  exists r b c p cookies e1 e2 e3 e4 ret st2,
    run (Close (Some ready_Signer))
      (snd (run (NewSigner "./stealth.min.js") (fresh closing_mock)))
    = (Returned ret, st2) /\
    log st2 =
    ([] ++
     [ Ev playwright_Run (Some r, None);
       Ev (Chromium_Launch r true) (Some b, None);
       Ev (Browser_NewContext b) (Some c, None);
       Ev (os_Stat "./stealth.min.js") None;
       Ev (Context_AddInitScript c "./stealth.min.js") None;
       Ev (Context_NewPage c) (Some p, None);
       Ev (Page_Goto p "https://www.xiaohongshu.com") None;
       Ev (Context_Cookies c) cookies ] ++
     [ Ev (Page_Close p) e1; Ev (Context_Close c) e2;
       Ev (Browser_Close b) e3; Ev (Playwright_Stop r) e4 ])%list.
Proof.
  apply (Close_after_NewSigner_releases_all "./stealth.min.js"
           (fresh closing_mock)
           (snd (run (NewSigner "./stealth.min.js") (fresh closing_mock)))
           ready_Signer).
  reflexivity.
Defined.

(** X13: Close does not clear the handles of the Signer, so it is not
    guarded against a second call: calling Close twice issues every release
    of the non-nil handles twice, in the same order. *)
Theorem Close_twice_releases_twice {W : Type} `{!Driver W} (s : Signer)
  (st : St W) :
  exists ret ret' e1 e2 e3 e4 e1' e2' e3' e4' st2,
    run_all [Close (Some s); Close (Some s)] st
    = ([Returned ret; Returned ret'], st2) /\
    log st2 = (log st ++ releases s e1 e2 e3 e4
                      ++ releases s e1' e2' e3' e4')%list.
Proof.
  destruct (Close_run s st)
    as (ret & st1 & e1 & e2 & e3 & e4 & Hrun & Hlog & _).
  destruct (Close_run s st1)
    as (ret' & st2 & e1' & e2' & e3' & e4' & Hrun' & Hlog' & _).
  exists ret, ret', e1, e2, e3, e4, e1', e2', e3', e4', st2.
  rewrite run_all_cons, Hrun. cbv beta iota.
  rewrite run_all_cons, Hrun'. cbn [run_all]. split; [reflexivity|].
  rewrite Hlog', Hlog, <- app_assoc. reflexivity.
Qed.

Example Close_twice_on_mock :
  log (snd (run_all [Close (Some ready_Signer); Close (Some ready_Signer)]
              (fresh (mock tokens))))
  = [ Ev (Page_Close (PageH 0)) None; Ev (Context_Close (ContextH 0)) None;
      Ev (Browser_Close (BrowserH 0)) None; Ev (Playwright_Stop (PwH 0)) None;
      Ev (Page_Close (PageH 0)) None; Ev (Context_Close (ContextH 0)) None;
      Ev (Browser_Close (BrowserH 0)) None; Ev (Playwright_Stop (PwH 0)) None ].
Proof. reflexivity. Qed.

(** ** Sign on a Signer from NewSigner *)

Lemma Sign_probes_first {W : Type} `{!Driver W} (s : Signer) (p : Page)
  (params : SignParams) (st : St W) :
  page s = Some p ->
  exists reply rest,
    log (snd (run (Sign (Some s) params) st))
    = (log st ++ Ev (Page_Evaluate p probe_js ANil) reply :: rest)%list /\
    fst (run (Sign (Some s) params) st)
    <> Returned (None, Some err_page_uninitialised).
Proof.
  intros Hp. unfold Sign, mbind, Prog_bind. simpl. rewrite Hp. simpl.
  every_answer.
  all: eexists _, _; split;
    [rewrite <- ?app_assoc; reflexivity | discriminate].
Qed.

(** X14: the nil check of Sign never fires on a Signer that NewSigner handed
    out.  Every Sign call on such a Signer begins with the probe on the page
    that the launch opened, and none returns the error that the page is not
    initialised. *)
Theorem Sign_after_NewSigner_probes_page {W : Type} `{!Driver W}
  (path : string) (st st1 st2 : St W) (s : Signer) (params : SignParams) :
  run (NewSigner path) st = (Returned (Some s, None), st1) ->
  exists c p reply rest,
    Ev (Context_NewPage c) (Some p, None) ∈ log st1 /\
    log (snd (run (Sign (Some s) params) st2))
    = (log st2 ++ Ev (Page_Evaluate p probe_js ANil) reply :: rest)%list /\
    fst (run (Sign (Some s) params) st2)
    <> Returned (None, Some err_page_uninitialised).
Proof.
  intros Hnew.
  destruct (NewSigner_success_inv path st st1 s Hnew)
    as (r & b & c & p & cookies & -> & Hlog).
  destruct (Sign_probes_first
              {| pw := Some r; browser := Some b; context := Some c;
                 page := Some p; stealthJS := path; initOnce := true;
                 initErr := None |} p params st2 eq_refl)
    as (reply & rest & Hsign & Hne).
  exists c, p, reply, rest. split; [|done].
  rewrite Hlog. apply elem_of_app. right. unfold launch_events.
  do 5 apply list_elem_of_further. apply list_elem_of_here.
Qed.

Lemma Sign_after_NewSigner_probes_page_witness :
  exists c p reply rest,
    Ev (Context_NewPage c) (Some p, None)
    ∈ log (snd (run (NewSigner "./stealth.min.js") (fresh bare_mock))) /\
    log (snd (run (Sign (Some ready_Signer) (request "/api/foo" ANil))
                (fresh bare_mock)))
    = ([] ++ Ev (Page_Evaluate p probe_js ANil) reply :: rest)%list /\
    fst (run (Sign (Some ready_Signer) (request "/api/foo" ANil))
           (fresh bare_mock))
    <> Returned (None, Some err_page_uninitialised).
Proof.
  apply (Sign_after_NewSigner_probes_page "./stealth.min.js" (fresh bare_mock)
           (snd (run (NewSigner "./stealth.min.js") (fresh bare_mock)))
           (fresh bare_mock) ready_Signer (request "/api/foo" ANil)).
  reflexivity.
Defined.

(** ** The handler of POST /sign *)

(** X15: a request whose body does not bind never reaches the Signer.  The
    handler answers 400 and has issued the binding only: no probe, no
    serialisation, no evaluation; this holds for a nil Signer as well. *)
Theorem sign_handler_rejects_before_signing {W : Type} `{!Driver W}
  (signer : option Signer) (request_body : string) (st : St W)
  (req : SignParams) (e : error) (w1 : W) :
  handle (ShouldBindJSON request_body) (world st) = ((req, Some e), w1) ->
  run (sign_handler signer request_body) st
  = (Returned {| status := 400;
                 body := gin_H {[ "error" :=
                   AString ("参数解析失败: " +:+ Error e) ]} |},
     {| world := w1;
        log := log st ++ [Ev (ShouldBindJSON request_body) (req, Some e)] |}).
Proof.
  intros Hbind. unfold sign_handler, mbind, Prog_bind.
  rewrite run_bind. unfold call. cbn [run]. rewrite Hbind. reflexivity.
Qed.

Lemma sign_handler_rejects_before_signing_witness :
  run (sign_handler None "{") (fresh (mock tokens))
  = (Returned {| status := 400;
                 body := gin_H {[ "error" :=
                   AString ("参数解析失败: " +:+ "unexpected EOF") ]} |},
     {| world := mock tokens;
        log := [] ++ [Ev (ShouldBindJSON "{")
                        ({| URI := ""; Data := ANil; A1 := "";
                            WebSession := "" |},
                         Some (errors_New "unexpected EOF"))] |}).
Proof.
  apply (sign_handler_rejects_before_signing None "{" (fresh (mock tokens))
           {| URI := ""; Data := ANil; A1 := ""; WebSession := "" |}
           (errors_New "unexpected EOF") (mock tokens)).
  reflexivity.
Defined.

(** X16: with a Signer that is not nil the handler always answers, and with
    one of three responses: 400 with the binding error under "error"; 500
    with one of the errors of Sign under "error"; or 200 with a SignResult
    that is not nil, so that a 200 never carries a null body. *)
Theorem sign_handler_always_responds {W : Type} `{!Driver W} (s : Signer)
  (request_body : string) (st : St W) :
  exists resp st',
    run (sign_handler (Some s) request_body) st = (Returned resp, st') /\
    ((status resp = 400%Z /\
      exists e, body resp
                = gin_H {[ "error" := AString ("参数解析失败: " +:+ Error e) ]})
     \/
     (status resp = 500%Z /\
      exists e, Sign_error e /\
                body resp
                = gin_H {[ "error" := AString ("签名失败: " +:+ Error e) ]})
     \/
     (status resp = 200%Z /\ exists r, body resp = BodySignResult (Some r))).
Proof.
  unfold sign_handler, mbind, Prog_bind.
  rewrite run_bind. unfold call. cbn [run].
  destruct (handle (ShouldBindJSON request_body) (world st))
    as [[req [e|]] w1]; cbv beta iota.
  - eexists _, _. split; [reflexivity|]. left. split; [reflexivity|].
    by exists e.
  - rewrite run_bind.
    destruct (Sign_outcome s req
                {| world := w1;
                   log := log st ++ [Ev (ShouldBindJSON request_body)
                                       (req, None)] |})
      as [(r & st' & Hrun) | (e & st' & Hrun & He)]; rewrite Hrun.
    + eexists _, _. split; [reflexivity|]. right. right.
      split; [reflexivity|]. by exists r.
    + eexists _, _. split; [reflexivity|]. right. left.
      split; [reflexivity|]. by exists e.
Qed.

(** ** Sign: nothing but its own page *)

Lemma run_replays {W : Type} `{!Driver W} {A : Type} (p : Prog A) (st : St W) :
  exists evs p',
    log (snd (run p st)) = (log st ++ evs)%list /\ replays p evs p'.
Proof.
  revert st. induction p as [a | r | X op k IH]; intros st; simpl.
  - exists [], (Ret a). by rewrite app_nil_r.
  - exists [], (Panic r). by rewrite app_nil_r.
  - destruct (handle op (world st)) as [x w].
    destruct (IH x {| world := w; log := log st ++ [Ev op x] |})
      as (evs & p' & Hlog & Hre).
    exists (Ev op x :: evs), p'. split.
    + rewrite Hlog. simpl. by rewrite <- app_assoc.
    + right. by exists x, evs.
Qed.

(** X17: a call of Sign touches nothing but the page of its Signer and the
    serialiser.  Whatever the driver answers, the operations it issues are
    none, or the probe on that page, or the probe and the serialisation of
    the payload, or these and one evaluation of the signing script on that
    page: it never launches, navigates or releases anything, and never
    evaluates a script on another page. *)
Theorem Sign_touches_only_its_page {W : Type} `{!Driver W} (s : Signer)
  (params : SignParams) (st : St W) :
  exists evs,
    log (snd (run (Sign (Some s) params) st)) = (log st ++ evs)%list /\
    (evs = [] \/
     exists p, page s = Some p /\
       ((exists r1, evs = [Ev (Page_Evaluate p probe_js ANil) r1]) \/
        (exists r2,
           evs = [ Ev (Page_Evaluate p probe_js ANil) (ABool true, None);
                   Ev (json_Marshal (Data params)) r2 ]) \/
        (exists dataJSON r3,
           evs = [ Ev (Page_Evaluate p probe_js ANil) (ABool true, None);
                   Ev (json_Marshal (Data params)) (dataJSON, None);
                   Ev (Page_Evaluate p sign_js
                         (ASlice [AString (URI params); AString dataJSON]))
                      r3 ]))).
Proof.
  destruct (run_replays (Sign (Some s) params) st) as (evs & p' & Hlog & Hre).
  exists evs. split; [done|].
  by apply (Sign_replays_prefix s params evs p').
Qed.
